(** * Conversation orchestration engine: shallow embedding and properties

    The Go sources embedded here are
    - package [assistant] ([src/unnamed/part_000]): [Assistant.Title],
      [Assistant.Reply], [executeTool], [toolDefinitions];
    - package [chat] ([src/unnamed/part_001]): [Server.StartConversation];
    - [src/internal/chat/assistant/weather_client.go]:
      [WeatherClient.GetCurrentWeather], [fetchWeather];
    - [src/internal/chat/tool/date.go]: [HolidaysTool.Execute].

    Go strings are byte sequences: they are modelled by [string], whose
    [ascii] elements are the bytes.  Go's pair result [(string, error)] is a
    pair [string * option error]; [None] is [nil].  Calls that leave the
    process (the chat model, the tools, HTTP, the clock, the repository) are
    state transformers over an environment, and each component records the
    calls it makes in a trace.  The [slog] calls have no effect on the
    results and are left out. *)

From Stdlib Require Import ZArith List Strings.String Strings.Ascii Bool Lia.
From Stdlib Require Import PrimFloat DecimalString.
From stdpp Require Import base gmap strings list.

Open Scope string_scope.
Open Scope list_scope.
Open Scope Z_scope.

(** ** Errors and the state monad *)

(** A Go [error] is represented by its [Error()] text. *)
Definition error := string.

(** [errors.New] and [fmt.Errorf] with a constant format. *)
Definition errors_New (msg : string) : error := msg.

Definition M (S A : Type) : Type := S -> A * S.

Definition ret {S A : Type} (a : A) : M S A := fun s => (a, s).

Definition bind {S A B : Type} (m : M S A) (k : A -> M S B) : M S B :=
  fun s => let (a, s') := m s in k a s'.

Declare Scope go_scope.
Delimit Scope go_scope with go.
Notation "x <- c1 ;; c2" := (bind c1 (fun x => c2))
  (at level 100, c1 at next level, right associativity) : go_scope.

(** ** Package [strings], [unicode] and [unicode/utf8] *)

Module GoStrings.

Definition byte_val (c : ascii) : Z := Z.of_N (N_of_ascii c).
Definition byte_of (z : Z) : ascii := ascii_of_N (Z.to_N z).

Definition bytes (s : string) : list Z := map byte_val (list_ascii_of_string s).
Definition of_bytes (l : list Z) : string := string_of_list_ascii (map byte_of l).

(** Single bytes that cannot be written inside a literal. *)
Definition TAB : string := String (byte_of 9) EmptyString.
Definition LF : string := String (byte_of 10) EmptyString.
Definition CR : string := String (byte_of 13) EmptyString.
Definition DQUOTE : string := String (byte_of 34) EmptyString.

(** [len(s)]: the number of bytes. *)
Definition len (s : string) : Z := Z.of_nat (String.length s).

(** [len] of a slice. *)
Definition len_list {A : Type} (l : list A) : Z := Z.of_nat (List.length l).

(** [s[:n]] for [0 <= n <= len(s)]. *)
Definition slice_to (s : string) (n : Z) : string := substring 0 (Z.to_nat n) s.

(** [strings.Join]. *)
Definition Join (elems : list string) (sep : string) : string := String.concat sep elems.

(** [strings.ReplaceAll(s, old, new)] for a non-empty [old]: the
    non-overlapping occurrences of [old] are replaced from the left.
    [skip] counts the bytes of a matched [old] still to be dropped. *)
Fixpoint replace_from (old new s : string) (skip : nat) : string :=
  match s with
  | EmptyString => EmptyString
  | String c s' =>
      match skip with
      | S k => replace_from old new s' k
      | O =>
          if String.prefix old s
          then new +:+ replace_from old new s' (String.length old - 1)
          else String c (replace_from old new s' O)
      end
  end.

Definition ReplaceAll (s old new : string) : string := replace_from old new s O.

(** [strings.Trim(s, cutset)] for a cutset of ASCII bytes: Go then trims
    byte by byte ([trimLeftASCII], [trimRightASCII]). *)
Definition in_cutset (cutset : string) (c : ascii) : bool :=
  existsb (Ascii.eqb c) (list_ascii_of_string cutset).

Fixpoint trimLeftASCII (s cutset : string) : string :=
  match s with
  | EmptyString => EmptyString
  | String c s' => if in_cutset cutset c then trimLeftASCII s' cutset else s
  end.

(** Drops the bytes of the cutset from the right end. *)
Fixpoint trimRightASCII (s cutset : string) : string :=
  match s with
  | EmptyString => EmptyString
  | String c s' =>
      match trimRightASCII s' cutset with
      | EmptyString => if in_cutset cutset c then EmptyString else String c EmptyString
      | r => String c r
      end
  end.

Definition Trim (s cutset : string) : string :=
  trimLeftASCII (trimRightASCII s cutset) cutset.

(** *** [unicode/utf8] *)

Definition RuneError : Z := 65533.
Definition RuneSelf : Z := 128.

Definition is_cont (b : Z) : bool := (128 <=? b) && (b <=? 191).

(** [utf8.RuneStart]. *)
Definition RuneStart (b : Z) : bool := negb (Z.land b 192 =? 128).

(** The [first] table with [acceptRanges]: for a leading byte, the size of
    the sequence and the range accepted for the second byte. *)
Definition first (b : Z) : option (Z * Z * Z) :=
  if (194 <=? b) && (b <=? 223) then Some (2, 128, 191)
  else if b =? 224 then Some (3, 160, 191)
  else if (225 <=? b) && (b <=? 236) then Some (3, 128, 191)
  else if b =? 237 then Some (3, 128, 159)
  else if (238 <=? b) && (b <=? 239) then Some (3, 128, 191)
  else if b =? 240 then Some (4, 144, 191)
  else if (241 <=? b) && (b <=? 243) then Some (4, 128, 191)
  else if b =? 244 then Some (4, 128, 143)
  else None.

(** [utf8.DecodeRuneInString]: the rune and its width in bytes. *)
Definition DecodeRune (s : list Z) : Z * Z :=
  match s with
  | [] => (RuneError, 0)
  | s0 :: t =>
      if s0 <? RuneSelf then (s0, 1)
      else match first s0 with
           | None => (RuneError, 1)
           | Some (sz, lo, hi) =>
               if Z.of_nat (List.length s) <? sz then (RuneError, 1)
               else match t with
                    | [] => (RuneError, 1)
                    | s1 :: t1 =>
                        if (s1 <? lo) || (hi <? s1) then (RuneError, 1)
                        else if sz <=? 2
                        then (Z.lor (Z.shiftl (Z.land s0 31) 6) (Z.land s1 63), 2)
                        else match t1 with
                             | [] => (RuneError, 1)
                             | s2 :: t2 =>
                                 if negb (is_cont s2) then (RuneError, 1)
                                 else if sz <=? 3
                                 then (Z.lor (Z.shiftl (Z.land s0 15) 12)
                                         (Z.lor (Z.shiftl (Z.land s1 63) 6) (Z.land s2 63)), 3)
                                 else match t2 with
                                      | [] => (RuneError, 1)
                                      | s3 :: _ =>
                                          if negb (is_cont s3) then (RuneError, 1)
                                          else (Z.lor (Z.shiftl (Z.land s0 7) 18)
                                                  (Z.lor (Z.shiftl (Z.land s1 63) 12)
                                                     (Z.lor (Z.shiftl (Z.land s2 63) 6)
                                                        (Z.land s3 63))), 4)
                                      end
                             end
                    end
           end
  end.

(** [utf8.DecodeLastRuneInString], on the reversed bytes: the candidate
    sequence starts at the nearest rune start among the three bytes before
    the last one, and counts only if it ends exactly at the end. *)
Definition DecodeLastRune (r : list Z) : Z * Z :=
  match r with
  | [] => (RuneError, 0)
  | b0 :: before =>
      if b0 <? RuneSelf then (b0, 1)
      else
        let try (k : nat) :=
          let '(c, size) := DecodeRune (rev (firstn (S k) r)) in
          if size =? Z.of_nat (S k) then (c, size) else (RuneError, 1) in
        match before with
        | b1 :: rest1 =>
            if RuneStart b1 then try 1%nat
            else match rest1 with
                 | b2 :: rest2 =>
                     if RuneStart b2 then try 2%nat
                     else match rest2 with
                          | b3 :: _ => if RuneStart b3 then try 3%nat else (RuneError, 1)
                          | [] => (RuneError, 1)
                          end
                 | [] => (RuneError, 1)
                 end
        | [] => (RuneError, 1)
        end
  end.

(** [utf8.RuneCountInString]: the number of characters (runes) of [s]. *)
Fixpoint rune_count_from (fuel : nat) (s : list Z) : Z :=
  match fuel, s with
  | O, _ | _, [] => 0
  | S k, _ :: _ =>
      let '(_, size) := DecodeRune s in
      1 + rune_count_from k (skipn (Z.to_nat size) s)
  end.

Definition RuneCountInString (s : string) : Z :=
  rune_count_from (String.length s) (bytes s).

(** [unicode.IsSpace]. *)
Definition IsSpace (r : Z) : bool :=
  if r <=? 255
  then (r =? 9) || (r =? 10) || (r =? 11) || (r =? 12) || (r =? 13) || (r =? 32)
       || (r =? 133) || (r =? 160)
  else (r =? 5760) || ((8192 <=? r) && (r <=? 8202)) || (r =? 8232) || (r =? 8233)
       || (r =? 8239) || (r =? 8287) || (r =? 12288).

(** [strings.TrimLeftFunc(s, unicode.IsSpace)]. *)
Fixpoint trim_left_space (fuel : nat) (s : list Z) : list Z :=
  match fuel, s with
  | O, _ | _, [] => s
  | S k, _ :: _ =>
      let '(r, size) := DecodeRune s in
      if IsSpace r then trim_left_space k (skipn (Z.to_nat size) s) else s
  end.

(** [strings.TrimRightFunc(s, unicode.IsSpace)], on the reversed bytes. *)
Fixpoint trim_right_space (fuel : nat) (r : list Z) : list Z :=
  match fuel, r with
  | O, _ | _, [] => r
  | S k, _ :: _ =>
      let '(c, size) := DecodeLastRune r in
      if IsSpace c then trim_right_space k (skipn (Z.to_nat size) r) else r
  end.

(** [strings.TrimSpace]: leading and trailing white space, as defined by
    Unicode, removed.  (Go's fast path for ASCII computes the same.) *)
Definition TrimSpace (s : string) : string :=
  let l := trim_left_space (String.length s) (bytes s) in
  of_bytes (rev (trim_right_space (List.length l) (rev l))).

(** [%d] of [fmt.Sprintf]. *)
Definition fmt_d (z : Z) : string := NilZero.string_of_int (Z.to_int z).

End GoStrings.

(** ** Package [time] *)

Module GoTime.

(** A [time.Time]: an instant, [sec] seconds and [nsec] nanoseconds after
    January 1, year 1, 00:00:00 UTC, and the offset east of UTC, in
    seconds, of the location it is presented in. *)
Record Time := mkTime { sec : Z; nsec : Z; offset : Z }.

(** The zero value [time.Time{}]. *)
Definition zero : Time := mkTime 0 0 0.

Definition IsZero (t : Time) : bool := (sec t =? 0) && (nsec t =? 0).

Definition After (t u : Time) : bool :=
  (sec u <? sec t) || ((sec t =? sec u) && (nsec u <? nsec t)).

Definition Before (t u : Time) : bool :=
  (sec t <? sec u) || ((sec t =? sec u) && (nsec t <? nsec u)).

(** Days since January 1, year 1 to the civil date, in the proleptic
    Gregorian calendar. *)
Definition civil_from_days (d1 : Z) : Z * Z * Z :=
  let z := d1 + 306 in
  let era := z / 146097 in
  let doe := z - era * 146097 in
  let yoe := (doe - doe / 1460 + doe / 36524 - doe / 146096) / 365 in
  let doy := doe - (365 * yoe + yoe / 4 - yoe / 100) in
  let mp := (5 * doy + 2) / 153 in
  let d := doy - (153 * mp + 2) / 5 + 1 in
  let m := if mp <? 10 then mp + 3 else mp - 9 in
  let y := yoe + era * 400 + (if m <=? 2 then 1 else 0) in
  (y, m, d).

Definition days_from_civil (y m d : Z) : Z :=
  let y' := if m <=? 2 then y - 1 else y in
  let era := y' / 400 in
  let yoe := y' - era * 400 in
  let doy := (153 * (if 2 <? m then m - 3 else m + 9) + 2) / 5 + d - 1 in
  let doe := yoe * 365 + yoe / 4 - yoe / 100 + doy in
  era * 146097 + doe - 306.

(** [time.Date(y, m, d, 0, 0, 0, 0, time.UTC)]. *)
Definition Date (y m d : Z) : Time := mkTime (days_from_civil y m d * 86400) 0 0.

(** [appendInt(b, x, width)]: decimal, padded with zeros on the left. *)
Fixpoint zeros (n : nat) : string :=
  match n with O => EmptyString | S k => String "0" (zeros k) end.

Definition appendInt (x : Z) (width : nat) : string :=
  let digits := GoStrings.fmt_d (Z.abs x) in
  (if x <? 0 then "-" else EmptyString)
    +:+ zeros (width - String.length digits) +:+ digits.

(** [t.Format(time.DateOnly)], the layout [2006-01-02]. *)
Definition FormatDateOnly (t : Time) : string :=
  let '(y, m, d) := civil_from_days ((sec t + offset t) / 86400) in
  appendInt y 4 +:+ "-" +:+ appendInt m 2 +:+ "-" +:+ appendInt d 2.

End GoTime.

(** ** Package [model]: conversations and messages *)

(** A [primitive.ObjectID], by its twelve bytes. *)
Definition ObjectID := string.

(** Modelled from the spec: the declarations of package [model] are not
    among the sources.  [model.Role] has the two named values [RoleUser] and
    [RoleAssistant]; a defined type of Go admits other values, for which
    [RoleOther] stands. *)
Inductive Role :=
| RoleUser
| RoleAssistant
| RoleOther (raw : string).

(** Modelled from the spec: [model.Message] and [model.Conversation], with
    the fields that the sources read and write. *)
Record Message := mkMessage {
  msg_ID : ObjectID;
  msg_Role : Role;
  msg_Content : string;
  msg_CreatedAt : GoTime.Time;
  msg_UpdatedAt : GoTime.Time
}.

Record Conversation := mkConversation {
  conv_ID : ObjectID;
  conv_Title : string;
  conv_CreatedAt : GoTime.Time;
  conv_UpdatedAt : GoTime.Time;
  conv_Messages : list Message
}.

(** ** Package [openai]: the types of the chat completion API that are used *)

Record ToolCall := mkToolCall {
  call_ID : string;
  call_Name : string;        (* call.Function.Name *)
  call_Arguments : string    (* call.Function.Arguments *)
}.

Record ChatCompletionMessage := mkChatMessage {
  Content : string;
  ToolCalls : list ToolCall
}.

(** [resp.Choices], each choice by its [Message]. *)
Record ChatCompletion := mkChatCompletion {
  Choices : list ChatCompletionMessage
}.

(** A turn sent to the model: [ChatCompletionMessageParamUnion]. *)
Inductive MessageParam :=
| SystemMessage (content : string)
| UserMessage (content : string)
| AssistantMessage (content : string)
| ToParam (message : ChatCompletionMessage)
| ToolMessage (content : string) (tool_call_id : string).

Inductive ChatModel := ChatModelO1 | ChatModelGPT4_1.

(** ** Package [assistant]: [Title] and [Reply] *)

Module Assistant.

Section Orchestrator.

(** The world outside the process, and the JSON schema type of
    [openai.FunctionParameters]. *)
Context {Env : Type} {FunctionParameters : Type}.

Record FunctionDefinitionParam := mkFunctionDefinition {
  fd_Name : string;
  fd_Description : string;
  fd_Parameters : FunctionParameters
}.

Record ChatCompletionNewParams := mkParams {
  Model : ChatModel;
  Messages : list MessageParam;
  Tools : list FunctionDefinitionParam
}.

(** [a.cli.Chat.Completions.New]: the remote model. *)
Variable Completions_New :
  ChatCompletionNewParams -> Env -> (ChatCompletion * option error) * Env.

(** The interface [Tool]. *)
Record Tool := mkTool {
  Name : string;
  Description : string;
  Parameters : FunctionParameters;
  Execute : string -> Env -> (string * option error) * Env
}.

Record Assistant := mkAssistant {
  tools : gmap string Tool
}.

(** What the orchestrator did: the model calls, with their parameters, and
    the tool dispatches, in the order they happened. *)
Inductive Event :=
| EvCompletion (params : ChatCompletionNewParams)
| EvExecuteTool (name args : string).

Record World := mkWorld {
  env : Env;
  trace : list Event
}.

Definition is_completion (e : Event) : bool :=
  match e with EvCompletion _ => true | EvExecuteTool _ _ => false end.

(** The number of model calls recorded in a trace. *)
Definition model_calls (t : list Event) : nat :=
  List.length (List.filter is_completion t).

Definition complete (params : ChatCompletionNewParams)
  : M World (ChatCompletion * option error) :=
  fun w =>
    let (r, e') := Completions_New params (env w) in
    (r, mkWorld e' (trace w ++ [EvCompletion params])).

Definition registerTool (a : Assistant) (tool : Tool) : Assistant :=
  mkAssistant (<[Name tool := tool]> (tools a)).

Definition toolDefinitions (a : Assistant) : list FunctionDefinitionParam :=
  map (fun kv => mkFunctionDefinition (Name (snd kv)) (Description (snd kv))
                   (Parameters (snd kv)))
      (map_to_list (tools a)).

Definition executeTool (a : Assistant) (name args : string)
  : M World (string * option error) :=
  fun w =>
    let t := trace w ++ [EvExecuteTool name args] in
    match tools a !! name with
    | None => ((EmptyString, Some ("unknown tool: " +:+ name)), mkWorld (env w) t)
    | Some tool =>
        let (r, e') := Execute tool args (env w) in (r, mkWorld e' t)
    end.

Definition title_instruction : string :=
  "Generate a concise, descriptive title for the conversation based on the user message. The title should be a single line, no more than 80 characters, and should not include any special characters or emojis.".

Definition title_cutset : string :=
  " " +:+ GoStrings.TAB +:+ GoStrings.CR +:+ GoStrings.LF +:+ "-" +:+ GoStrings.DQUOTE +:+ "'".

Definition empty_title_error : error :=
  errors_New "empty response from OpenAI for title generation".

Definition Title (a : Assistant) (conv : Conversation)
  : M World (string * option error) :=
  if GoStrings.len_list (conv_Messages conv) =? 0
  then ret ("An empty conversation", None)
  else
    let msgs := AssistantMessage title_instruction
                  :: map (fun m => UserMessage (msg_Content m)) (conv_Messages conv) in
    (r <- complete (mkParams ChatModelO1 msgs []) ;;
     match snd r with
     | Some err => ret (EmptyString, Some err)
     | None =>
         match Choices (fst r) with
         | [] => ret (EmptyString, Some empty_title_error)
         | choice :: _ =>
             if String.eqb (GoStrings.TrimSpace (Content choice)) EmptyString
             then ret (EmptyString, Some empty_title_error)
             else
               let title := Content choice in
               let title := GoStrings.ReplaceAll title GoStrings.LF " " in
               let title := GoStrings.Trim title title_cutset in
               let title := if 80 <? GoStrings.len title
                            then GoStrings.slice_to title 80 else title in
               ret (title, None)
         end
     end)%go.

Definition system_preamble : string :=
  "You are a helpful, concise AI assistant. Provide accurate, safe, and clear responses.".

(** The turn sequence that [Reply] starts from: the [switch] on the role
    has no default case. *)
Definition seed_messages (conv : Conversation) : list MessageParam :=
  fold_left
    (fun msgs m =>
       match msg_Role m with
       | RoleUser => msgs ++ [UserMessage (msg_Content m)]
       | RoleAssistant => msgs ++ [AssistantMessage (msg_Content m)]
       | RoleOther _ => msgs
       end)
    (conv_Messages conv)
    [SystemMessage system_preamble].

(** The loop over [message.ToolCalls]. *)
Fixpoint dispatch_calls (a : Assistant) (calls : list ToolCall)
  (msgs : list MessageParam) : M World (list MessageParam) :=
  match calls with
  | [] => ret msgs
  | call :: rest =>
      (r <- executeTool a (call_Name call) (call_Arguments call) ;;
       let result := match snd r with
                     | Some err => "Tool execution failed: " +:+ err
                     | None => fst r
                     end in
       dispatch_calls a rest (msgs ++ [ToolMessage result (call_ID call)]))%go
  end.

Definition no_choices_error : error := errors_New "no choices returned by OpenAI".
Definition too_many_tool_calls : error :=
  errors_New "too many tool calls, unable to generate reply".

(** The loop [for i := 0; i < 15; i++], by the number of iterations left. *)
Fixpoint reply_loop (a : Assistant) (left : nat) (msgs : list MessageParam)
  : M World (string * option error) :=
  match left with
  | O => ret (EmptyString, Some too_many_tool_calls)
  | S left' =>
      (r <- complete (mkParams ChatModelGPT4_1 msgs (toolDefinitions a)) ;;
       match snd r with
       | Some err => ret (EmptyString, Some err)
       | None =>
           match Choices (fst r) with
           | [] => ret (EmptyString, Some no_choices_error)
           | message :: _ =>
               if 0 <? GoStrings.len_list (ToolCalls message)
               then
                 msgs' <- dispatch_calls a (ToolCalls message) (msgs ++ [ToParam message]) ;;
                 reply_loop a left' msgs'
               else ret (Content message, None)
           end
       end)%go
  end.

Definition Reply (a : Assistant) (conv : Conversation)
  : M World (string * option error) :=
  if GoStrings.len_list (conv_Messages conv) =? 0
  then ret (EmptyString, Some (errors_New "conversation has no messages"))
  else reply_loop a 15 (seed_messages conv).

End Orchestrator.

End Assistant.

(** ** Package [assistant]: the weather client *)

Module Weather.

(** A [time.Duration]: nanoseconds in a signed 64-bit integer. *)
Definition Duration := Z.
Definition Millisecond : Duration := 1000000.

Definition wrap_int64 (z : Z) : Z :=
  (z + 9223372036854775808) mod 18446744073709551616 - 9223372036854775808.

(** The fields of [WeatherResponse]. *)
Record WeatherResponse := mkWeatherResponse {
  Location_Name : string;
  Location_Country : string;
  TempC : float;
  IsDay : Z;
  Condition_Text : string;
  WindKph : float;
  WindDir : string;
  Humidity : Z;
  Cloud : Z;
  FeelsLikeC : float;
  PrecipMm : float;
  UV : float
}.

(** What the HTTP round trip of [fetchWeather] can come back with. *)
Inductive HttpOutcome :=
| NewRequestFailed (err : error)      (* http.NewRequestWithContext *)
| DoFailed (err : error)              (* w.httpClient.Do *)
| Response (StatusCode : Z) (Body : string).

Record WeatherClient := mkWeatherClient {
  apiKey : string
}.

Inductive Event :=
| EvFetch (url : string)
| EvWait (delay : Duration).

Section Client.

Context {Env : Type}.

(** The network, the JSON decoder of the response body, the verbs
    [%.1f] and [%.0f] of [fmt], and the [select] between [ctx.Done()] and
    [time.After(delay)]: [Some err] when the context was done first, with
    [err] its [ctx.Err()]. *)
Variable http_get : string -> Env -> HttpOutcome * Env.
Variable json_Decode : string -> WeatherResponse * option error.
Variable fmt_f1 fmt_f0 : float -> string.
Variable ctx_wait : Duration -> Env -> option error * Env.

Record World := mkWorld {
  env : Env;
  trace : list Event
}.

Definition wait (delay : Duration) : M World (option error) :=
  fun w =>
    let (r, e') := ctx_wait delay (env w) in
    (r, mkWorld e' (trace w ++ [EvWait delay])).

Definition request (url : string) : M World HttpOutcome :=
  fun w =>
    let (r, e') := http_get url (env w) in
    (r, mkWorld e' (trace w ++ [EvFetch url])).

Definition weather_url (w : WeatherClient) (location : string) : string :=
  "http://api.weatherapi.com/v1/current.json?key=" +:+ apiKey w
    +:+ "&q=" +:+ location +:+ "&aqi=no".

(** The report built from a decoded response: lines 106 to 141. *)
Definition base_report (r : WeatherResponse) : string :=
  let timeOfDay := if IsDay r =? 0 then "at night" else "during the day" in
  "Current weather in " +:+ Location_Name r +:+ ", " +:+ Location_Country r
    +:+ " (" +:+ timeOfDay +:+ "):" +:+ GoStrings.LF
    +:+ "Temperature: " +:+ fmt_f1 (TempC r) +:+ "°C (feels like "
    +:+ fmt_f1 (FeelsLikeC r) +:+ "°C)" +:+ GoStrings.LF
    +:+ "Conditions: " +:+ Condition_Text r +:+ GoStrings.LF
    +:+ "Wind: " +:+ fmt_f1 (WindKph r) +:+ " km/h from " +:+ WindDir r +:+ GoStrings.LF
    +:+ "Humidity: " +:+ GoStrings.fmt_d (Humidity r) +:+ "%" +:+ GoStrings.LF
    +:+ "Cloud coverage: " +:+ GoStrings.fmt_d (Cloud r) +:+ "%".

Definition precipitation_line (r : WeatherResponse) : string :=
  GoStrings.LF +:+ "Precipitation: " +:+ fmt_f1 (PrecipMm r) +:+ " mm".

Definition uv_line (r : WeatherResponse) : string :=
  GoStrings.LF +:+ " High UV index: " +:+ fmt_f0 (UV r) +:+ " (use sun protection)".

Definition format_weather (r : WeatherResponse) : string :=
  let result := base_report r in
  let result := if PrimFloat.ltb 0%float (PrecipMm r)
                then result +:+ precipitation_line r else result in
  let result := if PrimFloat.ltb 6%float (UV r)
                then result +:+ uv_line r else result in
  result.

Definition fetchWeather (w : WeatherClient) (location : string)
  : M World (string * option error) :=
  (out <- request (weather_url w location) ;;
   match out with
   | NewRequestFailed err => ret (EmptyString, Some ("creating request: " +:+ err))
   | DoFailed err => ret (EmptyString, Some ("making request: " +:+ err))
   | Response StatusCode Body =>
       if negb (StatusCode =? 200)
       then ret (EmptyString,
                 Some ("API returned " +:+ GoStrings.fmt_d StatusCode +:+ ": " +:+ Body))
       else
         match json_Decode Body with
         | (_, Some err) => ret (EmptyString, Some ("decoding response: " +:+ err))
         | (weatherResp, None) => ret (format_weather weatherResp, None)
         end
   end)%go.

Definition maxRetries : Z := 3.
Definition baseDelay : Duration := 200 * Millisecond.

(** [baseDelay * time.Duration(1<<uint(attempt-1))]. *)
Definition backoff (attempt : Z) : Duration :=
  wrap_int64 (baseDelay * wrap_int64 (Z.shiftl 1 (attempt - 1))).

Definition fallback_text : string :=
  "Unable to fetch weather data at the moment. The weather is probably fine though! 🌤️".

(** The loop [for attempt := 0; attempt < maxRetries; attempt++], by the
    number of attempts left. *)
Fixpoint retry_loop (w : WeatherClient) (location : string) (left : nat)
  (attempt : Z) (lastErr : option error) : M World (string * option error) :=
  match left with
  | O => ret (fallback_text, lastErr)
  | S left' =>
      (cancelled <- (if 0 <? attempt then wait (backoff attempt) else ret None) ;;
       match cancelled with
       | Some ctxErr => ret (EmptyString, Some ctxErr)
       | None =>
           r <- fetchWeather w location ;;
           match snd r with
           | None => ret (fst r, None)
           | Some err => retry_loop w location left' (attempt + 1) (Some err)
           end
       end)%go
  end.

Definition GetCurrentWeather (w : WeatherClient) (location : string)
  : M World (string * option error) :=
  if String.eqb (apiKey w) EmptyString
  then ret ("Weather API key not configured", Some (errors_New "WEATHER_API_KEY not set"))
  else retry_loop w location (Z.to_nat maxRetries) 0 None.

End Client.

End Weather.

(** ** Package [tool]: the holidays tool *)

Module Holidays.

(** A calendar event, by what the two accessors used return:
    [event.GetAllDayStartAt()] and [event.GetProperty("SUMMARY").Value]. *)
Record VEvent := mkVEvent {
  GetAllDayStartAt : GoTime.Time * option error;
  SUMMARY : string
}.

(** The decoded arguments of the call. *)
Record Args := mkArgs {
  BeforeDate : string;
  AfterDate : string;
  MaxCount : Z
}.

Record HolidaysTool := mkHolidaysTool {
  calendarURL : string
}.

(** The loop over the events, lines 124 to 147; [holidays] is the slice
    built so far. *)
Fixpoint filter_events (maxCount : Z) (beforeDate afterDate : GoTime.Time)
  (events : list VEvent) (holidays : list string) : list string :=
  match events with
  | [] => holidays
  | event :: rest =>
      match GetAllDayStartAt event with
      | (_, Some _) => filter_events maxCount beforeDate afterDate rest holidays
      | (date, None) =>
          if (0 <? maxCount) && (maxCount <=? GoStrings.len_list holidays)
          then holidays
          else if negb (GoTime.IsZero beforeDate) && GoTime.After date beforeDate
          then filter_events maxCount beforeDate afterDate rest holidays
          else if negb (GoTime.IsZero afterDate) && GoTime.Before date afterDate
          then filter_events maxCount beforeDate afterDate rest holidays
          else filter_events maxCount beforeDate afterDate rest
                 (holidays ++ [GoTime.FormatDateOnly date +:+ ": " +:+ SUMMARY event])
      end
  end.

Section Tool.

Context {Env : Type}.

(** [json.Unmarshal] into the argument struct, [time.Parse] with the
    layout [time.RFC3339], and [LoadCalendar], which fetches and parses the
  feed and is not among the sources. *)
Variable json_Unmarshal : string -> Args * option error.
Variable time_Parse_RFC3339 : string -> GoTime.Time * option error.
Variable LoadCalendar : string -> Env -> (list VEvent * option error) * Env.

Definition Execute (t : HolidaysTool) (arguments : string)
  : M Env (string * option error) :=
  match json_Unmarshal arguments with
  | (_, Some err) => ret (EmptyString, Some ("invalid arguments: " +:+ err))
  | (args, None) =>
      let before := if String.eqb (BeforeDate args) EmptyString
                    then (GoTime.zero, None)
                    else time_Parse_RFC3339 (BeforeDate args) in
      match before with
      | (_, Some err) => ret (EmptyString, Some ("invalid before_date: " +:+ err))
      | (beforeDate, None) =>
          let after := if String.eqb (AfterDate args) EmptyString
                       then (GoTime.zero, None)
                       else time_Parse_RFC3339 (AfterDate args) in
          match after with
          | (_, Some err) => ret (EmptyString, Some ("invalid after_date: " +:+ err))
          | (afterDate, None) =>
              (loaded <- LoadCalendar (calendarURL t) ;;
               match snd loaded with
               | Some err => ret ("Failed to load holiday events", Some err)
               | None =>
                   let holidays :=
                     filter_events (MaxCount args) beforeDate afterDate (fst loaded) [] in
                   ret (GoStrings.Join holidays GoStrings.LF, None)
               end)%go
          end
      end
  end.

End Tool.

End Holidays.

(** ** Package [chat]: the server *)

Module Server.

(** [pb.StartConversationResponse]. *)
Record StartConversationResponse := mkStartConversationResponse {
  ConversationId : string;
  resp_Title : string;
  resp_Reply : string
}.

(** The title a conversation is created with, line 35. *)
Definition default_title : string := "Untitled conversation".

(** [twirp.RequiredArgumentError(argument)], by its text. *)
Definition RequiredArgumentError (argument : string) : error :=
  "twirp error invalid_argument: " +:+ argument +:+ " is required".

(** Which of the two goroutines got to call the assistant first. *)
Inductive Schedule := TitleFirst | ReplyFirst.

Inductive Event :=
| EvTitle (conv : Conversation)
| EvReply (conv : Conversation)
| EvCreateConversation (conv : Conversation).

Section Coordinator.

Context {Env : Type}.

(** The interface [Assistant]. *)
Record Assistant := mkAssistant {
  Title : Conversation -> Env -> (string * option error) * Env;
  Reply : Conversation -> Env -> (string * option error) * Env
}.

(** [primitive.NewObjectID], [ObjectID.Hex], [time.Now] and the
    repository's [CreateConversation]. *)
Variable NewObjectID : Env -> ObjectID * Env.
Variable Hex : ObjectID -> string.
Variable time_Now : Env -> GoTime.Time * Env.
Variable repo_CreateConversation : Conversation -> Env -> option error * Env.

Record World := mkWorld {
  env : Env;
  trace : list Event
}.

(** A call that leaves no event. *)
Definition lift {A : Type} (f : Env -> A * Env) : M World A :=
  fun w => let (a, e') := f (env w) in (a, mkWorld e' (trace w)).

Definition logged {A : Type} (ev : Event) (f : Env -> A * Env) : M World A :=
  fun w => let (a, e') := f (env w) in (a, mkWorld e' (trace w ++ [ev])).

(** The message literal: the fields are evaluated in the order written. *)
Definition new_message (role : Role) (content : string) : M World Message :=
  (id <- lift NewObjectID ;;
   created <- lift time_Now ;;
   updated <- lift time_Now ;;
   ret (mkMessage id role content created updated))%go.

(** The conversation literal, lines 33 to 45. *)
Definition new_conversation (message : string) : M World Conversation :=
  (id <- lift NewObjectID ;;
   created <- lift time_Now ;;
   updated <- lift time_Now ;;
   m <- new_message RoleUser message ;;
   ret (mkConversation id default_title created updated [m]))%go.

(** The two goroutines and [wg.Wait()]: both calls are made on the same
    conversation, in either order, and both results are received. *)
Definition run_tasks (sched : Schedule) (assist : Assistant) (conv : Conversation)
  : M World ((string * option error) * (string * option error)) :=
  match sched with
  | TitleFirst =>
      (titleResult <- logged (EvTitle conv) (Title assist conv) ;;
       replyResult <- logged (EvReply conv) (Reply assist conv) ;;
       ret (titleResult, replyResult))%go
  | ReplyFirst =>
      (replyResult <- logged (EvReply conv) (Reply assist conv) ;;
       titleResult <- logged (EvTitle conv) (Title assist conv) ;;
       ret (titleResult, replyResult))%go
  end.

Definition set_Title (conv : Conversation) (title : string) : Conversation :=
  mkConversation (conv_ID conv) title (conv_CreatedAt conv) (conv_UpdatedAt conv)
    (conv_Messages conv).

Definition append_Message (conv : Conversation) (m : Message) : Conversation :=
  mkConversation (conv_ID conv) (conv_Title conv) (conv_CreatedAt conv)
    (conv_UpdatedAt conv) (conv_Messages conv ++ [m]).

Definition StartConversation (sched : Schedule) (assist : Assistant) (message : string)
  : M World (option StartConversationResponse * option error) :=
  (conversation <- new_conversation message ;;
   if String.eqb (GoStrings.TrimSpace message) EmptyString
   then ret (None, Some (RequiredArgumentError "message"))
   else
     results <- run_tasks sched assist conversation ;;
     let titleResult := fst results in
     let replyResult := snd results in
     let conversation :=
       match snd titleResult with
       | Some _ => conversation
       | None => set_Title conversation (fst titleResult)
       end in
     match snd replyResult with
     | Some err => ret (None, Some err)
     | None =>
         m <- new_message RoleAssistant (fst replyResult) ;;
         let conversation := append_Message conversation m in
         created <- logged (EvCreateConversation conversation)
                      (repo_CreateConversation conversation) ;;
         match created with
         | Some err => ret (None, Some err)
         | None =>
             ret (Some (mkStartConversationResponse (Hex (conv_ID conversation))
                          (conv_Title conversation) (fst replyResult)), None)
         end
     end)%go.

End Coordinator.

End Server.

(** * Specification vocabulary *)

Module GoStringsSpec.

Import GoStrings.

(** The string with every byte replaced by its image. *)
Fixpoint map_bytes (f : ascii -> ascii) (s : string) : string :=
  match s with
  | EmptyString => EmptyString
  | String c s' => String (f c) (map_bytes f s')
  end.

Definition newline_to_space (c : ascii) : ascii :=
  if Ascii.eqb c (byte_of 10) then byte_of 32 else c.

(** Every byte of [s] is in the cutset. *)
Fixpoint all_in (cutset s : string) : bool :=
  match s with
  | EmptyString => true
  | String c s' => in_cutset cutset c && all_in cutset s'
  end.

(** [s] starts, or ends, with a byte of the cutset. *)
Definition starts_in (cutset s : string) : bool :=
  match s with
  | EmptyString => false
  | String c _ => in_cutset cutset c
  end.

Fixpoint ends_in (cutset s : string) : bool :=
  match s with
  | EmptyString => false
  | String c EmptyString => in_cutset cutset c
  | String _ s' => ends_in cutset s'
  end.

(** The text is plain ASCII: every character is one byte. *)
Fixpoint is_ascii (s : string) : bool :=
  match s with
  | EmptyString => true
  | String c s' => (byte_val c <? RuneSelf) && is_ascii s'
  end.

End GoStringsSpec.

Module AssistantSpec.

Import Assistant.

Section Vocabulary.

Context {Env : Type} {FunctionParameters : Type}.

(** The events of dispatching a list of calls, in order. *)
Definition dispatch_events (calls : list ToolCall) : list (@Event FunctionParameters) :=
  map (fun c => EvExecuteTool (call_Name c) (call_Arguments c)) calls.

(** A turn answers a call: it is a tool-result turn carrying the call's
    identifier. *)
Definition answers (call : ToolCall) (turn : MessageParam) : Prop :=
  exists content, turn = ToolMessage content (call_ID call).

(** The model answers every request with a response whose first choice
    carries at least one tool call. *)
Definition always_requests_tools
  (Completions_New : @ChatCompletionNewParams FunctionParameters
                     -> Env -> (ChatCompletion * option error) * Env) : Prop :=
  forall params e,
    snd (fst (Completions_New params e)) = None
    /\ exists message rest,
         Choices (fst (fst (Completions_New params e))) = message :: rest
         /\ ToolCalls message <> [].

(** The world once the model has been called with [params] and left the
    environment [e]. *)
Definition after_completion (w : @World Env FunctionParameters)
  (params : ChatCompletionNewParams) (e : Env) : World :=
  mkWorld e (trace w ++ [EvCompletion params]).

(** A tool call fails with the error [e], leaving the world [w']: the
    registry has no tool of that name, or the tool's execution returns [e]. *)
Inductive call_fails (a : @Assistant Env FunctionParameters) (call : ToolCall)
  (w : @World Env FunctionParameters) (e : error) (w' : @World Env FunctionParameters)
  : Prop :=
| fails_unknown :
    tools a !! call_Name call = None ->
    e = "unknown tool: " +:+ call_Name call ->
    w' = mkWorld (env w)
           (trace w ++ [EvExecuteTool (call_Name call) (call_Arguments call)]) ->
    call_fails a call w e w'
| fails_execute tool result e' :
    tools a !! call_Name call = Some tool ->
    Execute tool (call_Arguments call) (env w) = ((result, Some e), e') ->
    w' = mkWorld e'
           (trace w ++ [EvExecuteTool (call_Name call) (call_Arguments call)]) ->
    call_fails a call w e w'.

(** The turn a stored message is sent to the model as, if any. *)
Definition turn_of_message (m : Message) : option MessageParam :=
  match msg_Role m with
  | RoleUser => Some (UserMessage (msg_Content m))
  | RoleAssistant => Some (AssistantMessage (msg_Content m))
  | RoleOther _ => None
  end.

(** The turn sequence of a list of stored messages: the system preamble,
    then the turns of the messages that have one. *)
Definition seeded (messages : list Message) : list MessageParam :=
  SystemMessage system_preamble :: omap turn_of_message messages.

Definition reply_params (a : @Assistant Env FunctionParameters)
  (msgs : list MessageParam) : ChatCompletionNewParams :=
  mkParams ChatModelGPT4_1 msgs (toolDefinitions a).

Definition title_params (conv : Conversation) : @ChatCompletionNewParams FunctionParameters :=
  mkParams ChatModelO1
    (AssistantMessage title_instruction
       :: map (fun m => UserMessage (msg_Content m)) (conv_Messages conv)) [].

End Vocabulary.

End AssistantSpec.

Module WeatherSpec.

Import Weather.

Section Vocabulary.

Context {Env : Type}.
Variable http_get : string -> Env -> HttpOutcome * Env.
Variable json_Decode : string -> WeatherResponse * option error.
Variable fmt_f1 fmt_f0 : float -> string.
Variable ctx_wait : Duration -> Env -> option error * Env.

(** The context is never done while the client waits. *)
Definition never_cancelled : Prop :=
  forall delay e, fst (ctx_wait delay e) = None.

(** Every fetch for this client and location returns an error. *)
Definition fetch_always_fails (c : WeatherClient) (location : string) : Prop :=
  forall w : @World Env,
    snd (fst (fetchWeather http_get json_Decode fmt_f1 fmt_f0 c location w)) <> None.

(** The lines of the report. *)
Definition heading_line (r : WeatherResponse) : string :=
  "Current weather in " +:+ Location_Name r +:+ ", " +:+ Location_Country r
    +:+ " (" +:+ (if IsDay r =? 0 then "at night" else "during the day") +:+ "):".

Definition temperature_line (r : WeatherResponse) : string :=
  "Temperature: " +:+ fmt_f1 (TempC r) +:+ "°C (feels like "
    +:+ fmt_f1 (FeelsLikeC r) +:+ "°C)".

Definition conditions_line (r : WeatherResponse) : string :=
  "Conditions: " +:+ Condition_Text r.

Definition wind_line (r : WeatherResponse) : string :=
  "Wind: " +:+ fmt_f1 (WindKph r) +:+ " km/h from " +:+ WindDir r.

Definition humidity_line (r : WeatherResponse) : string :=
  "Humidity: " +:+ GoStrings.fmt_d (Humidity r) +:+ "%".

Definition cloud_line (r : WeatherResponse) : string :=
  "Cloud coverage: " +:+ GoStrings.fmt_d (Cloud r) +:+ "%".

Definition precipitation_text (r : WeatherResponse) : string :=
  "Precipitation: " +:+ fmt_f1 (PrecipMm r) +:+ " mm".

Definition uv_text (r : WeatherResponse) : string :=
  " High UV index: " +:+ fmt_f0 (UV r) +:+ " (use sun protection)".

Definition report_lines (r : WeatherResponse) : list string :=
  [heading_line r; temperature_line r; conditions_line r; wind_line r;
   humidity_line r; cloud_line r]
    ++ (if PrimFloat.ltb 0%float (PrecipMm r) then [precipitation_text r] else [])
    ++ (if PrimFloat.ltb 6%float (UV r) then [uv_text r] else []).

End Vocabulary.

End WeatherSpec.

Module HolidaysSpec.

Import Holidays.

(** A bound is set when it is not the zero time: [beforeDate] and
    [afterDate] stay zero when the argument is absent. *)
Definition bound_set (t : GoTime.Time) : bool := negb (GoTime.IsZero t).

(** The line of an event that passes the date filters; no line for an
    event whose date is malformed or outside the bounds. *)
Definition kept (beforeDate afterDate : GoTime.Time) (event : VEvent) : option string :=
  match GetAllDayStartAt event with
  | (_, Some _) => None
  | (date, None) =>
      if bound_set beforeDate && GoTime.After date beforeDate then None
      else if bound_set afterDate && GoTime.Before date afterDate then None
      else Some (GoTime.FormatDateOnly date +:+ ": " +:+ SUMMARY event)
  end.

(** The first [maxCount] lines when [maxCount] is positive, all of them
    otherwise. *)
Definition capped (maxCount : Z) (lines : list string) : list string :=
  if 0 <? maxCount then firstn (Z.to_nat maxCount) lines else lines.

(** The bound decoded from an argument: zero when the argument is empty. *)
Definition parsed_bound (time_Parse_RFC3339 : string -> GoTime.Time * option error)
  (argument : string) : GoTime.Time * option error :=
  if String.eqb argument EmptyString then (GoTime.zero, None)
  else time_Parse_RFC3339 argument.

(** An event with a well-formed date. *)
Definition event_on (y m d : Z) (summary : string) : VEvent :=
  mkVEvent (GoTime.Date y m d, None) summary.

End HolidaysSpec.

Module ServerSpec.

Import Server.


End ServerSpec.

(** * Concrete instances *)

Module Demo.

Import Assistant.

(** A model that plays a script: each call takes the next response. *)
Definition Script := list (ChatCompletion * option error).

Definition scripted_model (params : @ChatCompletionNewParams unit) (script : Script)
  : (ChatCompletion * option error) * Script :=
  match script with
  | [] => ((mkChatCompletion [], Some (errors_New "script exhausted")), [])
  | r :: script' => (r, script')
  end.

Definition date_call : ToolCall := mkToolCall "call_1" "get_today_date" "{}".

Definition asks_for_date : ChatCompletionMessage := mkChatMessage EmptyString [date_call].

(** A model that requests the same tool call whatever it is sent. *)
Definition looping_model (params : @ChatCompletionNewParams unit) (script : Script)
  : (ChatCompletion * option error) * Script :=
  ((mkChatCompletion [asks_for_date], None), script).

(** An assistant with no tool registered. *)
Definition bare_assistant : @Assistant Script unit := mkAssistant ∅.

(** An assistant whose weather tool has no API key: its execution returns
    a text together with an error. *)
Definition unconfigured_weather : @Tool Script unit :=
  mkTool "get_weather" "Get weather at the given location" tt
    (fun arguments script =>
       (("Weather API key not configured", Some (errors_New "WEATHER_API_KEY not set")),
        script)).

Definition weather_assistant : @Assistant Script unit :=
  registerTool bare_assistant unconfigured_weather.

Definition weather_call : ToolCall :=
  mkToolCall "call_7" "get_weather" "{location: Barcelona}".

Definition start_world (script : Script) : @World Script unit := mkWorld script [].

Definition at_noon : GoTime.Time := GoTime.mkTime (GoTime.days_from_civil 2024 6 15 * 86400 + 43200) 0 0.

Definition user_message (content : string) : Message :=
  mkMessage "000000000001" RoleUser content at_noon at_noon.

Definition conversation_of (messages : list Message) : Conversation :=
  mkConversation "00000000000c" "Untitled conversation" at_noon at_noon messages.

Definition weather_question : Conversation :=
  conversation_of [user_message "What's the weather in Barcelona?"].

Definition empty_conversation : Conversation := conversation_of [].

(** A conversation with a stored message whose role is neither user nor
    assistant. *)
Definition mixed_conversation : Conversation :=
  conversation_of
    [user_message "Hello!";
     mkMessage "000000000002" (RoleOther "tool") "ignored" at_noon at_noon;
     mkMessage "000000000003" RoleAssistant "Hi, how can I help?" at_noon at_noon].

Definition answer (content : string) : ChatCompletion * option error :=
  (mkChatCompletion [mkChatMessage content []], None).

Fixpoint repeat_string (n : nat) (s : string) : string :=
  match n with O => EmptyString | S k => s +:+ repeat_string k s end.

(** A title of 81 characters of two bytes each. *)
Definition accented_title : string := repeat_string 81 "é".

(** A weather service that is down: every request comes back with the
    status 503.  The environment counts the requests. *)
Definition service_down (url : string) (requests : nat) : Weather.HttpOutcome * nat :=
  (Weather.Response 503 "Service Unavailable", S requests).

Definition no_decoder (body : string) : Weather.WeatherResponse * option error :=
  (Weather.mkWeatherResponse EmptyString EmptyString 0%float 0 EmptyString 0%float
     EmptyString 0 0 0%float 0%float 0%float,
   Some (errors_New "unexpected end of JSON input")).

Definition no_format (x : float) : string := "?".

Definition patient_context (delay : Weather.Duration) (requests : nat)
  : option error * nat := (None, requests).

(** A dry, sunny noon in Barcelona. *)
Definition sunny_noon : Weather.WeatherResponse :=
  Weather.mkWeatherResponse "Barcelona" "Spain" 22.5%float 1 "Sunny" 12%float "NE" 40 0
    23%float 0%float 7%float.

Definition configured_client : Weather.WeatherClient := Weather.mkWeatherClient "secret".

Definition weather_start : @Weather.World nat := Weather.mkWorld 0%nat [].

(** The arguments of the example, already decoded, and a parser that
    knows the one RFC3339 text used. *)
Definition after_february : Holidays.Args :=
  Holidays.mkArgs EmptyString "2024-02-01T00:00:00Z" 1.

Definition decode_arguments (arguments : string) : Holidays.Args * option error :=
  (after_february, None).

Definition parse_time (value : string) : GoTime.Time * option error :=
  if String.eqb value "2024-02-01T00:00:00Z" then (GoTime.Date 2024 2 1, None)
  else (GoTime.zero, Some (errors_New "parsing time: cannot parse")).

Definition catalonia_feed (url : string) (loads : nat)
  : (list Holidays.VEvent * option error) * nat :=
  (([HolidaysSpec.event_on 2024 1 1 "New Year's Day";
     HolidaysSpec.event_on 2024 6 15 "Local Festival";
     HolidaysSpec.event_on 2024 12 25 "Christmas Day"], None), S loads).

Definition holidays_tool : Holidays.HolidaysTool :=
  Holidays.mkHolidaysTool "https://www.officeholidays.com/ics/spain/catalonia".

(** The server's collaborators: identifiers and clock readings count up
    in an environment of two counters, and the repository accepts every
    conversation. *)
Definition Counters := (nat * nat)%type.

Definition next_id (e : Counters) : ObjectID * Counters :=
  (GoStrings.fmt_d (Z.of_nat (fst e)), (S (fst e), snd e)).

Definition tick (e : Counters) : GoTime.Time * Counters :=
  (GoTime.mkTime (GoTime.sec at_noon + Z.of_nat (snd e)) 0 0, (fst e, S (snd e))).

Definition store (conv : Conversation) (e : Counters) : option error * Counters :=
  (None, e).

Definition plain_hex (id : ObjectID) : string := id.

(** The assistant of the test [continues when title generation fails]. *)
Definition quota_assistant : @Server.Assistant Counters :=
  Server.mkAssistant
    (fun conv e => ((EmptyString, Some (errors_New "OpenAI quota exceeded")), e))
    (fun conv e => (("This is the reply", None), e)).


Definition server_start : @Server.World Counters := Server.mkWorld (0%nat, 0%nat) [].

End Demo.

(** * Properties *)

(** ** Running a computation *)

Lemma bind_run {S A B : Type} (m : M S A) (k : A -> M S B) (s : S) (a : A) (s' : S) :
  m s = (a, s') -> bind m k s = k a s'.
Proof. intros H. unfold bind. now rewrite H. Qed.

(** ** Strings *)

Module GoStringsFacts.

Import GoStrings GoStringsSpec.

Lemma append_nil_l (s : string) : EmptyString +:+ s = s.
Proof. reflexivity. Qed.

Lemma append_cons (c : ascii) (s t : string) : String c s +:+ t = String c (s +:+ t).
Proof. reflexivity. Qed.

Lemma append_assoc (s1 s2 s3 : string) : (s1 +:+ s2) +:+ s3 = s1 +:+ (s2 +:+ s3).
Proof.
  induction s1 as [|c s1 IH]; [reflexivity|]. rewrite !append_cons. now rewrite IH.
Qed.

Lemma append_nil_r (s : string) : s +:+ EmptyString = s.
Proof. induction s as [|c s IH]; [reflexivity|]. rewrite append_cons. now rewrite IH. Qed.

(** Replacing the newline by a space is a byte-wise map. *)
Lemma ReplaceAll_newline (s : string) :
  ReplaceAll s LF " " = map_bytes newline_to_space s.
Proof.
  unfold ReplaceAll. induction s as [|c s IH]; [reflexivity|].
  cbn [replace_from map_bytes]. unfold newline_to_space at 1.
  change (String.prefix LF (String c s)) with
    (if ascii_dec (byte_of 10) c then String.prefix EmptyString s else false).
  destruct (ascii_dec (byte_of 10) c) as [<-|Hne].
  - replace (String.prefix EmptyString s) with true by now destruct s.
    cbn. now rewrite <- IH.
  - destruct (Ascii.eqb_spec c (byte_of 10)) as [->|_]; [congruence|].
    now rewrite IH.
Qed.

Lemma trimLeftASCII_spec (cutset s : string) :
  exists l,
    s = l +:+ trimLeftASCII s cutset
    /\ all_in cutset l = true
    /\ starts_in cutset (trimLeftASCII s cutset) = false.
Proof.
  induction s as [|c s (l & Hs & Hl & Ht)].
  - now exists EmptyString.
  - cbn [trimLeftASCII]. destruct (in_cutset cutset c) eqn:Hc.
    + exists (String c l). rewrite append_cons, <- Hs. cbn [all_in].
      rewrite Hc, Hl. auto.
    + exists EmptyString. cbn [starts_in all_in]. rewrite Hc. auto.
Qed.

Lemma trimRightASCII_spec (cutset s : string) :
  exists r,
    s = trimRightASCII s cutset +:+ r
    /\ all_in cutset r = true
    /\ ends_in cutset (trimRightASCII s cutset) = false.
Proof.
  induction s as [|c s (r & Hs & Hr & Ht)].
  - now exists EmptyString.
  - cbn [trimRightASCII]. destruct (trimRightASCII s cutset) as [|d t] eqn:Htrim.
    + rewrite append_nil_l in Hs. subst r.
      destruct (in_cutset cutset c) eqn:Hc.
      * exists (String c s). rewrite append_nil_l. cbn [all_in ends_in].
        rewrite Hc, Hr. auto.
      * exists s. rewrite append_cons, append_nil_l. cbn [ends_in].
        rewrite Hc. auto.
    + exists r. rewrite append_cons, <- Hs. auto.
Qed.

Lemma ends_in_append (cutset l t : string) :
  t <> EmptyString -> ends_in cutset (l +:+ t) = ends_in cutset t.
Proof.
  intros Ht. induction l as [|c l IH]; [reflexivity|].
  rewrite append_cons. cbn [ends_in]. rewrite IH.
  destruct (l +:+ t) eqn:E; [|reflexivity].
  destruct l; [rewrite append_nil_l in E; congruence | discriminate].
Qed.

(** [Trim] removes from both ends the longest runs of cutset bytes. *)
Lemma Trim_spec (cutset s : string) :
  exists l r,
    s = l +:+ Trim s cutset +:+ r
    /\ all_in cutset l = true
    /\ all_in cutset r = true
    /\ starts_in cutset (Trim s cutset) = false
    /\ ends_in cutset (Trim s cutset) = false.
Proof.
  unfold Trim.
  destruct (trimRightASCII_spec cutset s) as (r & Hs & Hr & He).
  destruct (trimLeftASCII_spec cutset (trimRightASCII s cutset)) as (l & Hm & Hl & Hst).
  exists l, r. rewrite <- append_assoc, <- Hm, <- Hs.
  repeat split; try assumption.
  destruct (trimLeftASCII (trimRightASCII s cutset) cutset) as [|c t] eqn:E; [reflexivity|].
  rewrite Hm in He. now rewrite ends_in_append in He.
Qed.

Lemma length_substring_0 (n : nat) (s : string) :
  (n <= String.length s)%nat -> String.length (substring 0 n s) = n.
Proof.
  revert s. induction n as [|n IH]; intros s Hn.
  - now destruct s.
  - destruct s as [|c s]; cbn in *; [lia|]. rewrite IH; [reflexivity | lia].
Qed.

Lemma prefix_substring_0 (n : nat) (s : string) :
  String.prefix (substring 0 n s) s = true.
Proof.
  revert s. induction n as [|n IH]; intros s.
  - now destruct s.
  - destruct s as [|c s]; cbn; [reflexivity|].
    destruct (ascii_dec c c); [apply IH | congruence].
Qed.

(** [s[:80]] of a longer string is its first 80 bytes. *)
Lemma slice_to_80 (s : string) :
  80 < len s -> len (slice_to s 80) = 80 /\ String.prefix (slice_to s 80) s = true.
Proof.
  unfold len, slice_to. intros H. split; [|apply prefix_substring_0].
  rewrite length_substring_0; lia.
Qed.

Lemma DecodeRune_ascii (b : Z) (l : list Z) :
  (b <? RuneSelf) = true -> DecodeRune (b :: l) = (b, 1).
Proof. intros H. unfold DecodeRune. now rewrite H. Qed.

Lemma rune_count_ascii (s : string) : forall fuel,
  is_ascii s = true -> (String.length s <= fuel)%nat ->
  rune_count_from fuel (bytes s) = len s.
Proof.
  induction s as [|c s IH]; intros fuel Ha Hf.
  - now destruct fuel.
  - cbn [is_ascii] in Ha. apply andb_true_iff in Ha as [Hc Hs].
    destruct fuel as [|fuel]; [cbn in Hf; lia|].
    change (bytes (String c s)) with (byte_val c :: bytes s).
    cbn [rune_count_from]. rewrite (DecodeRune_ascii _ _ Hc).
    change (skipn (Z.to_nat 1) (byte_val c :: bytes s)) with (bytes s).
    rewrite IH; [|assumption|cbn in Hf; lia].
    unfold len. cbn [String.length]. lia.
Qed.

(** In ASCII text the characters are the bytes. *)
Lemma RuneCount_ascii (s : string) : is_ascii s = true -> RuneCountInString s = len s.
Proof. intros H. apply rune_count_ascii; [assumption | lia]. Qed.

End GoStringsFacts.

(** ** The reply loop *)

Module AssistantFacts.

Import Assistant AssistantSpec GoStringsSpec GoStringsFacts.

Section Reply.

Context {Env : Type} {FunctionParameters : Type}.
Variable Completions_New :
  @ChatCompletionNewParams FunctionParameters -> Env -> (ChatCompletion * option error) * Env.

Abbreviation World := (@World Env FunctionParameters).
Abbreviation Assistant := (@Assistant Env FunctionParameters).

Implicit Types (a : Assistant) (w : World) (msgs turns : list MessageParam)
  (calls : list ToolCall).

Lemma executeTool_trace a name args w :
  trace (snd (executeTool a name args w)) = trace w ++ [EvExecuteTool name args].
Proof.
  unfold executeTool. destruct (tools a !! name) as [tool|]; [|reflexivity].
  destruct (Execute tool args (env w)); reflexivity.
Qed.

Lemma model_calls_app (t1 t2 : list (@Event FunctionParameters)) :
  model_calls (t1 ++ t2) = (model_calls t1 + model_calls t2)%nat.
Proof. unfold model_calls. now rewrite List.filter_app, List.length_app. Qed.

Lemma model_calls_dispatch calls :
  model_calls (@dispatch_events FunctionParameters calls) = 0%nat.
Proof. induction calls as [|c calls IH]; [reflexivity | exact IH]. Qed.

Lemma dispatch_calls_spec a calls : forall msgs w,
  exists turns w',
    dispatch_calls a calls msgs w = (msgs ++ turns, w')
    /\ Forall2 answers calls turns
    /\ trace w' = trace w ++ dispatch_events calls.
Proof.
  induction calls as [|call rest IH]; intros msgs w.
  - exists [], w. cbn. rewrite !app_nil_r. repeat split. constructor.
  - cbn [dispatch_calls].
    pose proof (executeTool_trace a (call_Name call) (call_Arguments call) w) as Ht.
    destruct (executeTool a (call_Name call) (call_Arguments call) w) as [r w1] eqn:Hx.
    rewrite (bind_run _ _ _ _ _ Hx).
    match goal with |- context [ToolMessage ?c _] => set (result := c) end.
    destruct (IH (msgs ++ [ToolMessage result (call_ID call)]) w1)
      as (turns & w2 & Hd & Hf & Htr).
    exists (ToolMessage result (call_ID call) :: turns), w2.
    rewrite Hd, <- app_assoc. split; [reflexivity|]. split.
    + constructor; [now exists result | exact Hf].
    + rewrite Htr. cbn in Ht. rewrite Ht, <- app_assoc. reflexivity.
Qed.

Lemma dispatch_calls_app a pre post : forall msgs w,
  dispatch_calls a (pre ++ post) msgs w
  = (let (msgs1, w1) := dispatch_calls a pre msgs w in dispatch_calls a post msgs1 w1).
Proof.
  induction pre as [|call pre IH]; intros msgs w; [reflexivity|].
  cbn [dispatch_calls app]. unfold bind.
  destruct (executeTool a (call_Name call) (call_Arguments call) w) as [r w1].
  apply IH.
Qed.

Lemma len_list_pos {A : Type} (l : list A) : l <> [] -> (0 <? GoStrings.len_list l) = true.
Proof.
  intros H. destruct l; [congruence|]. unfold GoStrings.len_list. cbn [List.length].
  apply Z.ltb_lt. lia.
Qed.

(** One iteration whose response carries tool calls. *)
Lemma reply_loop_tool_step a left msgs w resp e' message rest :
  Completions_New (reply_params a msgs) (env w) = ((resp, None), e') ->
  Choices resp = message :: rest ->
  ToolCalls message <> [] ->
  reply_loop Completions_New a (S left) msgs w
  = (let (msgs', w') :=
       dispatch_calls a (ToolCalls message) (msgs ++ [ToParam message])
         (after_completion w (reply_params a msgs) e') in
     reply_loop Completions_New a left msgs' w').
Proof.
  intros Hc Hch Hne. cbn [reply_loop]. unfold bind at 1.
  unfold complete. fold (reply_params a msgs). rewrite Hc. cbn [fst snd].
  rewrite Hch, (len_list_pos _ Hne). unfold bind. reflexivity.
Qed.

Lemma reply_loop_exhausts a :
  always_requests_tools Completions_New ->
  forall left msgs w,
  exists w',
    reply_loop Completions_New a left msgs w
    = ((EmptyString, Some too_many_tool_calls), w')
    /\ model_calls (trace w') = (model_calls (trace w) + left)%nat.
Proof.
  intros Hall. induction left as [|left IH]; intros msgs w.
  - exists w. split; [reflexivity | lia].
  - destruct (Hall (reply_params a msgs) (env w)) as (Herr & message & rest & Hch & Hne).
    destruct (Completions_New (reply_params a msgs) (env w)) as [[resp err] e'] eqn:Hc.
    cbn [fst snd] in Herr, Hch. subst err.
    rewrite (reply_loop_tool_step a left msgs w resp e' message rest Hc Hch Hne).
    destruct (dispatch_calls_spec a (ToolCalls message) (msgs ++ [ToParam message])
                (after_completion w (reply_params a msgs) e'))
      as (turns & w1 & Hd & _ & Htr).
    rewrite Hd. destruct (IH ((msgs ++ [ToParam message]) ++ turns) w1) as (w2 & Hr & Hn).
    exists w2. split; [exact Hr|]. rewrite Hn, Htr. cbn [after_completion trace].
    rewrite !model_calls_app, model_calls_dispatch. cbn. lia.
Qed.

Lemma Reply_nonempty a conv w :
  conv_Messages conv <> [] ->
  Reply Completions_New a conv w = reply_loop Completions_New a 15 (seed_messages conv) w.
Proof.
  intros Hne. unfold Reply. destruct (conv_Messages conv); [congruence|]. reflexivity.
Qed.

(** C1: against a model that requests a tool call in every response,
    [Reply] on a conversation with at least one message calls the model
    exactly 15 times and then returns the error of the exhausted loop,
    with no answer text. *)
Theorem Reply_exhausted_after_15_model_calls a conv w :
  always_requests_tools Completions_New ->
  conv_Messages conv <> [] ->
  exists w',
    Reply Completions_New a conv w = ((EmptyString, Some too_many_tool_calls), w')
    /\ model_calls (trace w') = (model_calls (trace w) + 15)%nat.
Proof.
  intros Hall Hne. rewrite (Reply_nonempty a conv w Hne).
  apply (reply_loop_exhausts a Hall).
Qed.

(** C2: in an iteration whose response carries tool calls, the model's own
    turn is appended first, then one tool-result turn per call, carrying
    the identifiers of the calls in their order; the tools were dispatched
    in that order after the model call, and the next iteration starts from
    the extended sequence. *)
Theorem tool_results_follow_the_model_turn a left msgs w resp e' message rest :
  Completions_New (reply_params a msgs) (env w) = ((resp, None), e') ->
  Choices resp = message :: rest ->
  ToolCalls message <> [] ->
  exists turns w',
    reply_loop Completions_New a (S left) msgs w
    = reply_loop Completions_New a left (msgs ++ ToParam message :: turns) w'
    /\ Forall2 answers (ToolCalls message) turns
    /\ List.length turns = List.length (ToolCalls message)
    /\ trace w' = trace w ++ EvCompletion (reply_params a msgs)
                            :: dispatch_events (ToolCalls message).
Proof.
  intros Hc Hch Hne.
  rewrite (reply_loop_tool_step a left msgs w resp e' message rest Hc Hch Hne).
  destruct (dispatch_calls_spec a (ToolCalls message) (msgs ++ [ToParam message])
              (after_completion w (reply_params a msgs) e'))
    as (turns & w1 & Hd & Hf & Htr).
  exists turns, w1. rewrite Hd, <- app_assoc. cbn [app].
  split; [reflexivity|]. split; [exact Hf|]. split.
  - symmetry. exact (Forall2_length _ _ _ Hf).
  - rewrite Htr. cbn [after_completion trace]. rewrite <- app_assoc. reflexivity.
Qed.

Lemma call_fails_executeTool a call w e w' :
  call_fails a call w e w' ->
  exists result,
    executeTool a (call_Name call) (call_Arguments call) w = ((result, Some e), w').
Proof.
  intros [Hnone He Hw | tool result e1 Hsome Hexec Hw]; subst; unfold executeTool.
  - rewrite Hnone. now exists EmptyString.
  - rewrite Hsome, Hexec. now exists result.
Qed.

(** C3: when a tool call of a response fails, because the registry has no
    tool of that name or because the execution returns an error, the loop
    appends the tool-result turn with the text of the failure and goes on
    with the remaining calls and the next iteration. *)
Theorem failed_tool_call_becomes_a_turn
  a left msgs w resp e' message rest pre call post msgs1 w1 e w2 :
  Completions_New (reply_params a msgs) (env w) = ((resp, None), e') ->
  Choices resp = message :: rest ->
  ToolCalls message = pre ++ call :: post ->
  dispatch_calls a pre (msgs ++ [ToParam message])
    (after_completion w (reply_params a msgs) e') = (msgs1, w1) ->
  call_fails a call w1 e w2 ->
  reply_loop Completions_New a (S left) msgs w
  = (let (msgs', w') :=
       dispatch_calls a post
         (msgs1 ++ [ToolMessage ("Tool execution failed: " +:+ e) (call_ID call)]) w2 in
     reply_loop Completions_New a left msgs' w').
Proof.
  intros Hc Hch Hcalls Hpre Hfail.
  assert (Hne : ToolCalls message <> []) by (rewrite Hcalls; now destruct pre).
  rewrite (reply_loop_tool_step a left msgs w resp e' message rest Hc Hch Hne).
  rewrite Hcalls, dispatch_calls_app, Hpre. cbn [dispatch_calls].
  destruct (call_fails_executeTool a call w1 e w2 Hfail) as (result & Hx).
  rewrite (bind_run _ _ _ _ _ Hx). reflexivity.
Qed.

Lemma seed_fold (messages : list Message) : forall acc,
  fold_left
    (fun msgs m =>
       match msg_Role m with
       | RoleUser => msgs ++ [UserMessage (msg_Content m)]
       | RoleAssistant => msgs ++ [AssistantMessage (msg_Content m)]
       | RoleOther _ => msgs
       end) messages acc
  = acc ++ omap turn_of_message messages.
Proof.
  induction messages as [|m messages IH]; intros acc; cbn [fold_left].
  - cbn. now rewrite app_nil_r.
  - rewrite IH. cbn [omap list_omap]. unfold turn_of_message at 2.
    destruct (msg_Role m); cbn; now rewrite <- ?app_assoc.
Qed.

Lemma seed_messages_seeded conv : seed_messages conv = seeded (conv_Messages conv).
Proof. unfold seed_messages, seeded. now rewrite seed_fold. Qed.

(** C10: the turn sequence [Reply] starts from is the system preamble
    followed by one turn for each message of role user or assistant, in
    message order; a message of any other role contributes no turn and
    the loop runs all the same. *)
Theorem Reply_seeds_user_and_assistant_turns a conv w :
  seed_messages conv = seeded (conv_Messages conv)
  /\ (conv_Messages conv <> [] ->
      Reply Completions_New a conv w
      = reply_loop Completions_New a 15 (seeded (conv_Messages conv)) w)
  /\ (forall before m after raw,
        conv_Messages conv = before ++ m :: after ->
        msg_Role m = RoleOther raw ->
        seed_messages conv = seeded (before ++ after)).
Proof.
  split; [apply seed_messages_seeded|]. split.
  - intros Hne. rewrite (Reply_nonempty a conv w Hne). now rewrite seed_messages_seeded.
  - intros before m after raw Hm Hrole. rewrite seed_messages_seeded, Hm.
    unfold seeded. f_equal. rewrite !omap_app. cbn [omap list_omap].
    unfold turn_of_message at 2. now rewrite Hrole.
Qed.

Lemma Title_model_call a conv w resp err e' :
  conv_Messages conv <> [] ->
  Completions_New (title_params conv) (env w) = ((resp, err), e') ->
  Title Completions_New a conv w
  = (let k := fun r : ChatCompletion * option error =>
       match snd r with
       | Some err => ret (EmptyString, Some err)
       | None =>
           match Choices (fst r) with
           | [] => ret (EmptyString, Some empty_title_error)
           | choice :: _ =>
               if String.eqb (GoStrings.TrimSpace (Content choice)) EmptyString
               then ret (EmptyString, Some empty_title_error)
               else
                 let title := GoStrings.Trim
                                (GoStrings.ReplaceAll (Content choice) GoStrings.LF " ")
                                title_cutset in
                 ret (if 80 <? GoStrings.len title
                      then GoStrings.slice_to title 80 else title, None)
           end
       end in
     k (resp, err) (after_completion w (title_params conv) e')).
Proof.
  intros Hne Hc. unfold Title. destruct (conv_Messages conv) eqn:Hm; [congruence|].
  change (GoStrings.len_list (m :: l) =? 0) with false. cbv iota.
  unfold bind at 1. unfold complete. unfold title_params in Hc. rewrite Hm in Hc.
  rewrite Hc. unfold after_completion, title_params. rewrite Hm. reflexivity.
Qed.

(** C6, as amended: with a first choice in hand, [Title] fails when the
    text trimmed of white space is empty; otherwise every newline byte
    becomes a space, the longest runs of space, tab, carriage return,
    newline, hyphen, double quote and single quote are removed from both
    ends, and a result of more than 80 bytes is cut to its first 80 bytes,
    which are 80 characters when they are ASCII.  The raw output
    [-- Weather chat in Barcelona --] followed by a newline gives
    [Weather chat in Barcelona]. *)
Theorem Title_postprocessing a conv w resp e' choice rest :
  conv_Messages conv <> [] ->
  Completions_New (title_params conv) (env w) = ((resp, None), e') ->
  Choices resp = choice :: rest ->
  let raw := Content choice in
  let w' := after_completion w (title_params conv) e' in
  (GoStrings.TrimSpace raw = EmptyString ->
   Title Completions_New a conv w = ((EmptyString, Some empty_title_error), w'))
  /\ (GoStrings.TrimSpace raw <> EmptyString ->
      exists l t r,
        map_bytes newline_to_space raw = l +:+ t +:+ r
        /\ all_in title_cutset l = true
        /\ all_in title_cutset r = true
        /\ starts_in title_cutset t = false
        /\ ends_in title_cutset t = false
        /\ (GoStrings.len t <= 80 ->
            Title Completions_New a conv w = ((t, None), w'))
        /\ (80 < GoStrings.len t ->
            exists cut,
              Title Completions_New a conv w = ((cut, None), w')
              /\ GoStrings.len cut = 80
              /\ String.prefix cut t = true
              /\ (is_ascii cut = true -> GoStrings.RuneCountInString cut = 80)))
  /\ (raw = "-- Weather chat in Barcelona --" +:+ GoStrings.LF ->
      Title Completions_New a conv w = (("Weather chat in Barcelona", None), w')).
Proof.
  intros Hne Hc Hch raw w'.
  rewrite (Title_model_call a conv w resp None e' Hne Hc). cbv zeta. cbn [fst snd].
  rewrite Hch. fold raw. fold w'. split; [|split].
  - intros ->. reflexivity.
  - intros Hraw. destruct (String.eqb_spec (GoStrings.TrimSpace raw) EmptyString);
      [congruence|].
    destruct (Trim_spec title_cutset (GoStrings.ReplaceAll raw GoStrings.LF " "))
      as (l & r & Hs & Hl & Hr & Hst & Hen).
    set (t := GoStrings.Trim (GoStrings.ReplaceAll raw GoStrings.LF " ") title_cutset) in *.
    exists l, t, r. rewrite <- ReplaceAll_newline.
    repeat (split; [assumption|]). split.
    + intros Hle. destruct (Z.ltb_spec 80 (GoStrings.len t)); [lia | reflexivity].
    + intros Hlt. destruct (Z.ltb_spec 80 (GoStrings.len t)); [|lia].
      exists (GoStrings.slice_to t 80). destruct (slice_to_80 t Hlt) as [Hlen Hpre].
      repeat split; try assumption.
      intros Hascii. rewrite (RuneCount_ascii _ Hascii). exact Hlen.
  - intros ->. reflexivity.
Qed.

(** C7, as amended: on a conversation with no message [Title] returns the
    fixed text [An empty conversation] and no error, and leaves the world
    as it was: the model is not called. *)
Theorem Title_of_empty_conversation a conv w :
  conv_Messages conv = [] ->
  Title Completions_New a conv w = (("An empty conversation", None), w)
  /\ model_calls (trace (snd (Title Completions_New a conv w))) = model_calls (trace w).
Proof.
  intros Hm. unfold Title. rewrite Hm. split; reflexivity.
Qed.

End Reply.

(** *** The properties at concrete conversations *)

Import Demo.

Lemma looping_model_always_requests_tools : always_requests_tools looping_model.
Proof.
  intros params e. split; [reflexivity|].
  exists asks_for_date, []. split; [reflexivity | discriminate].
Qed.

Lemma Reply_exhausted_witness :
  exists w',
    Reply looping_model bare_assistant weather_question (start_world [])
    = ((EmptyString, Some too_many_tool_calls), w')
    /\ model_calls (trace w') = (model_calls (trace (start_world [])) + 15)%nat.
Proof.
  apply (Reply_exhausted_after_15_model_calls looping_model).
  - exact looping_model_always_requests_tools.
  - discriminate.
Defined.

Lemma tool_results_witness :
  exists turns w',
    reply_loop looping_model bare_assistant 15 (seed_messages weather_question)
      (start_world [])
    = reply_loop looping_model bare_assistant 14
        (seed_messages weather_question ++ ToParam asks_for_date :: turns) w'
    /\ Forall2 answers (ToolCalls asks_for_date) turns
    /\ List.length turns = List.length (ToolCalls asks_for_date)
    /\ trace w'
       = trace (start_world [])
           ++ EvCompletion (reply_params bare_assistant (seed_messages weather_question))
                :: dispatch_events (ToolCalls asks_for_date).
Proof.
  apply (tool_results_follow_the_model_turn looping_model bare_assistant 14
           (seed_messages weather_question) (start_world [])
           (mkChatCompletion [asks_for_date]) [] asks_for_date []).
  - reflexivity.
  - reflexivity.
  - discriminate.
Defined.

(** The registry of [bare_assistant] has no tool [get_today_date]: the
    call fails and its failure text is the tool-result turn. *)
Lemma failed_tool_call_witness :
  reply_loop scripted_model bare_assistant 15 (seed_messages weather_question)
    (start_world [(mkChatCompletion [asks_for_date], None); answer "It is sunny."])
  = (let (msgs', w') :=
       dispatch_calls bare_assistant []
         ((seed_messages weather_question ++ [ToParam asks_for_date])
            ++ [ToolMessage ("Tool execution failed: " +:+ "unknown tool: get_today_date")
                  "call_1"])
         (mkWorld [answer "It is sunny."]
            [EvCompletion (reply_params bare_assistant (seed_messages weather_question));
             EvExecuteTool "get_today_date" "{}"]) in
     reply_loop scripted_model bare_assistant 14 msgs' w').
Proof.
  apply (failed_tool_call_becomes_a_turn scripted_model bare_assistant 14
           (seed_messages weather_question)
           (start_world [(mkChatCompletion [asks_for_date], None); answer "It is sunny."])
           (mkChatCompletion [asks_for_date]) [answer "It is sunny."] asks_for_date []
           [] date_call []
           (seed_messages weather_question ++ [ToParam asks_for_date])
           (after_completion
              (start_world [(mkChatCompletion [asks_for_date], None); answer "It is sunny."])
              (reply_params bare_assistant (seed_messages weather_question))
              [answer "It is sunny."])).
  - reflexivity.
  - reflexivity.
  - reflexivity.
  - reflexivity.
  - apply fails_unknown; reflexivity.
Defined.

(** After the failed call the scripted model answers, and [Reply] returns
    the answer. *)
Example Reply_survives_unknown_tool :
  fst (Reply scripted_model bare_assistant weather_question
         (start_world [(mkChatCompletion [asks_for_date], None); answer "It is sunny."]))
  = ("It is sunny.", None).
Proof. vm_compute. reflexivity. Qed.

(** A registered tool that returns an error: the next model call is sent
    the failure text as the tool-result turn, and [Reply] returns the
    answer that follows. *)
Example Reply_survives_failing_tool :
  let run := Reply scripted_model weather_assistant weather_question
               (start_world [(mkChatCompletion [mkChatMessage EmptyString [weather_call]],
                              None);
                             answer "I cannot reach the weather service."]) in
  fst run = ("I cannot reach the weather service.", None)
  /\ exists params1 params2,
       trace (snd run)
       = [EvCompletion params1; EvExecuteTool "get_weather" "{location: Barcelona}";
          EvCompletion params2]
       /\ Messages params2
          = seed_messages weather_question
              ++ [ToParam (mkChatMessage EmptyString [weather_call]);
                  ToolMessage "Tool execution failed: WEATHER_API_KEY not set" "call_7"].
Proof.
  cbv zeta. split; [vm_compute; reflexivity|].
  eexists _, _. split; vm_compute; reflexivity.
Qed.

Lemma Reply_seeds_witness :
  seed_messages mixed_conversation
  = [SystemMessage system_preamble; UserMessage "Hello!";
     AssistantMessage "Hi, how can I help?"].
Proof.
  destruct (Reply_seeds_user_and_assistant_turns scripted_model bare_assistant
              mixed_conversation (start_world [])) as [H _].
  rewrite H. reflexivity.
Defined.

Lemma Title_postprocessing_witness :
  Title scripted_model bare_assistant weather_question
    (start_world [answer ("-- Weather chat in Barcelona --" +:+ GoStrings.LF)])
  = (("Weather chat in Barcelona", None),
     after_completion
       (start_world [answer ("-- Weather chat in Barcelona --" +:+ GoStrings.LF)])
       (title_params weather_question) []).
Proof.
  refine (proj2 (proj2 (Title_postprocessing scripted_model bare_assistant weather_question
                          (start_world [answer ("-- Weather chat in Barcelona --"
                                                  +:+ GoStrings.LF)])
                          (mkChatCompletion
                             [mkChatMessage ("-- Weather chat in Barcelona --"
                                               +:+ GoStrings.LF) []])
                          [] (mkChatMessage ("-- Weather chat in Barcelona --"
                                               +:+ GoStrings.LF) []) [] _ _ _)) _).
  - discriminate.
  - reflexivity.
  - reflexivity.
  - reflexivity.
Defined.

(** The model's title has 81 characters, none of them trimmed; the title
    returned is its first 80 bytes, which are 40 characters. *)
Lemma Title_cuts_bytes_not_characters :
  let result := fst (Title scripted_model bare_assistant weather_question
                       (start_world [answer accented_title])) in
  GoStrings.RuneCountInString
    (GoStrings.Trim (GoStrings.ReplaceAll accented_title GoStrings.LF " ") title_cutset)
  = 81
  /\ snd result = None
  /\ GoStrings.RuneCountInString (fst result) = 40
  /\ GoStrings.RuneCountInString (fst result) <> 80.
Proof.
  cbv zeta. split; [vm_compute; reflexivity|]. split; [vm_compute; reflexivity|].
  split; [vm_compute; reflexivity|]. vm_compute. discriminate.
Qed.

Lemma Title_of_empty_witness :
  Title scripted_model bare_assistant empty_conversation (start_world [])
  = (("An empty conversation", None), start_world [])
  /\ model_calls
       (trace (snd (Title scripted_model bare_assistant empty_conversation (start_world []))))
     = model_calls (trace (start_world [])).
Proof.
  apply (Title_of_empty_conversation scripted_model bare_assistant empty_conversation).
  reflexivity.
Defined.

(** The title returned for a conversation with no message is not the
    title [Untitled conversation] that new conversations start with. *)
Lemma Title_of_empty_is_not_the_default_title :
  fst (Title scripted_model bare_assistant empty_conversation (start_world []))
  <> (Server.default_title, None).
Proof. vm_compute. discriminate. Qed.

End AssistantFacts.

(** ** The weather client *)

Module WeatherFacts.

Import Weather WeatherSpec GoStringsFacts.

Section Client.

Context {Env : Type}.
Variable http_get : string -> Env -> HttpOutcome * Env.
Variable json_Decode : string -> WeatherResponse * option error.
Variable fmt_f1 fmt_f0 : float -> string.
Variable ctx_wait : Duration -> Env -> option error * Env.

Abbreviation fetch := (fetchWeather http_get json_Decode fmt_f1 fmt_f0).
Abbreviation get := (GetCurrentWeather http_get json_Decode fmt_f1 fmt_f0 ctx_wait).

Implicit Types (c : WeatherClient) (w : @World Env).

Lemma backoff_1 : backoff 1 = 200 * Millisecond.
Proof. reflexivity. Qed.

Lemma backoff_2 : backoff 2 = 400 * Millisecond.
Proof. reflexivity. Qed.

Lemma fetchWeather_trace c location w :
  trace (snd (fetch c location w)) = trace w ++ [EvFetch (weather_url c location)].
Proof.
  unfold fetchWeather, bind, request.
  destruct (http_get (weather_url c location) (env w)) as [[err|err|code body] e'];
    try reflexivity.
  destruct (negb (code =? 200)); [reflexivity|].
  destruct (json_Decode body) as [resp [err|]]; reflexivity.
Qed.

(** A response with status 200 that decodes gives the formatted report. *)
Lemma fetchWeather_ok c location w body e' r :
  http_get (weather_url c location) (env w) = (Response 200 body, e') ->
  json_Decode body = (r, None) ->
  fst (fetch c location w) = (format_weather fmt_f1 fmt_f0 r, None).
Proof.
  intros Hget Hdec. unfold fetchWeather, bind, request. rewrite Hget.
  cbn [negb Z.eqb Pos.eqb]. now rewrite Hdec.
Qed.

Lemma wait_not_cancelled delay w :
  never_cancelled ctx_wait ->
  exists w', wait ctx_wait delay w = (None, w') /\ trace w' = trace w ++ [EvWait delay].
Proof.
  intros Hnc. unfold wait. specialize (Hnc delay (env w)).
  destruct (ctx_wait delay (env w)) as [r e']. cbn in Hnc. subst r.
  eexists. split; reflexivity.
Qed.

Lemma fetch_fails c location w :
  fetch_always_fails http_get json_Decode fmt_f1 fmt_f0 c location ->
  exists text e w',
    fetch c location w = ((text, Some e), w')
    /\ trace w' = trace w ++ [EvFetch (weather_url c location)].
Proof.
  intros Hf. specialize (Hf w). pose proof (fetchWeather_trace c location w) as Ht.
  destruct (fetch c location w) as [[text [e|]] w']; [|now cbn in Hf].
  exists text, e, w'. split; [reflexivity | exact Ht].
Qed.

(** C5: with an API key, a context that is never done and a fetch that
    fails every time, [GetCurrentWeather] fetches exactly three times,
    waits 200ms before the second fetch and 400ms before the third, and
    returns the fallback text with the error of the third fetch. *)
Theorem GetCurrentWeather_gives_up_after_three_attempts c location w :
  apiKey c <> EmptyString ->
  never_cancelled ctx_wait ->
  fetch_always_fails http_get json_Decode fmt_f1 fmt_f0 c location ->
  exists text1 e1 w1 w2 text2 e2 w3 w4 text3 e3 w5,
    fetch c location w = ((text1, Some e1), w1)
    /\ wait ctx_wait (200 * Millisecond) w1 = (None, w2)
    /\ fetch c location w2 = ((text2, Some e2), w3)
    /\ wait ctx_wait (400 * Millisecond) w3 = (None, w4)
    /\ fetch c location w4 = ((text3, Some e3), w5)
    /\ get c location w = ((fallback_text, Some e3), w5)
    /\ trace w5 = trace w ++ [EvFetch (weather_url c location);
                              EvWait (200 * Millisecond);
                              EvFetch (weather_url c location);
                              EvWait (400 * Millisecond);
                              EvFetch (weather_url c location)].
Proof.
  intros Hkey Hnc Hf.
  destruct (fetch_fails c location w Hf) as (text1 & e1 & w1 & F1 & T1).
  destruct (wait_not_cancelled (200 * Millisecond) w1 Hnc) as (w2 & W1 & T2).
  destruct (fetch_fails c location w2 Hf) as (text2 & e2 & w3 & F2 & T3).
  destruct (wait_not_cancelled (400 * Millisecond) w3 Hnc) as (w4 & W2 & T4).
  destruct (fetch_fails c location w4 Hf) as (text3 & e3 & w5 & F3 & T5).
  exists text1, e1, w1, w2, text2, e2, w3, w4, text3, e3, w5.
  repeat (split; [assumption|]). split.
  - unfold GetCurrentWeather.
    destruct (String.eqb_spec (apiKey c) EmptyString) as [|_]; [congruence|].
    change (Z.to_nat maxRetries) with 3%nat. cbn [retry_loop].
    change (0 <? 0) with false. cbv iota.
    unfold bind at 1. unfold ret at 1.
    rewrite (bind_run _ _ _ _ _ F1). cbn [snd].
    change (0 <? 0 + 1) with true. cbv iota. change (0 + 1) with 1. rewrite backoff_1.
    rewrite (bind_run _ _ _ _ _ W1), (bind_run _ _ _ _ _ F2). cbn [snd].
    change (0 <? 1 + 1) with true. cbv iota. change (1 + 1) with 2. rewrite backoff_2.
    rewrite (bind_run _ _ _ _ _ W2), (bind_run _ _ _ _ _ F3). reflexivity.
  - rewrite T5, T4, T3, T2, T1, <- !app_assoc. reflexivity.
Qed.

Lemma Join_cons2 (x y : string) (l : list string) (sep : string) :
  GoStrings.Join (x :: y :: l) sep = x +:+ sep +:+ GoStrings.Join (y :: l) sep.
Proof. reflexivity. Qed.

Lemma format_weather_lines r :
  format_weather fmt_f1 fmt_f0 r = GoStrings.Join (report_lines fmt_f1 fmt_f0 r) GoStrings.LF.
Proof.
  unfold format_weather, report_lines, base_report, precipitation_line, uv_line.
  unfold heading_line, temperature_line, conditions_line, wind_line, humidity_line,
    cloud_line, precipitation_text, uv_text.
  destruct (PrimFloat.ltb 0 (PrecipMm r)), (PrimFloat.ltb 6 (UV r));
    cbn [app]; rewrite !Join_cons2; unfold GoStrings.Join; cbn [String.concat];
    rewrite ?append_assoc; repeat (rewrite ?append_cons, ?append_nil_l);
    rewrite ?append_assoc; reflexivity.
Qed.

(** C9: the report is made of the heading and the temperature (with
    feels-like), conditions, wind, humidity and cloud coverage lines, in
    every case; the precipitation line is among its lines exactly when the
    precipitation is greater than 0, and the high-UV line exactly when the
    UV index is greater than 6. *)
Theorem weather_report_lines r :
  let lines := report_lines fmt_f1 fmt_f0 r in
  format_weather fmt_f1 fmt_f0 r = GoStrings.Join lines GoStrings.LF
  /\ In (temperature_line fmt_f1 r) lines
  /\ In (conditions_line r) lines
  /\ In (wind_line fmt_f1 r) lines
  /\ In (humidity_line r) lines
  /\ In (cloud_line r) lines
  /\ (In (precipitation_text fmt_f1 r) lines <-> PrimFloat.ltb 0%float (PrecipMm r) = true)
  /\ (In (uv_text fmt_f0 r) lines <-> PrimFloat.ltb 6%float (UV r) = true).
Proof.
  cbv zeta. split; [apply format_weather_lines|].
  unfold report_lines.
  repeat (split; [cbn [In app]; tauto|]).
  split.
  - split.
    + intros H. destruct (PrimFloat.ltb 0 (PrecipMm r)); [reflexivity|].
      destruct (PrimFloat.ltb 6 (UV r)); cbn [In app] in H;
        repeat (destruct H as [H|H]; [discriminate H|]); contradiction.
    + intros ->. cbn [In app]. tauto.
  - split.
    + intros H. destruct (PrimFloat.ltb 6 (UV r)); [reflexivity|].
      destruct (PrimFloat.ltb 0 (PrecipMm r)); cbn [In app] in H;
        repeat (destruct H as [H|H]; [discriminate H|]); contradiction.
    + intros ->. destruct (PrimFloat.ltb 0 (PrecipMm r)); cbn [In app]; tauto.
Qed.

End Client.

(** *** The client against a service that is down *)

Import Demo.

Lemma service_down_fetch_fails :
  fetch_always_fails service_down no_decoder no_format no_format configured_client
    "Barcelona".
Proof. intros w. cbn. discriminate. Qed.

Lemma GetCurrentWeather_witness :
  exists e3 w5,
    GetCurrentWeather service_down no_decoder no_format no_format patient_context
      configured_client "Barcelona" weather_start
    = ((fallback_text, Some e3), w5)
    /\ trace w5
       = [EvFetch (weather_url configured_client "Barcelona"); EvWait 200000000;
          EvFetch (weather_url configured_client "Barcelona"); EvWait 400000000;
          EvFetch (weather_url configured_client "Barcelona")].
Proof.
  destruct (GetCurrentWeather_gives_up_after_three_attempts
              service_down no_decoder no_format no_format patient_context
              configured_client "Barcelona" weather_start)
    as (text1 & e1 & w1 & w2 & text2 & e2 & w3 & w4 & text3 & e3 & w5 & H).
  - discriminate.
  - intros delay e. reflexivity.
  - exact service_down_fetch_fails.
  - exists e3, w5. destruct H as (_ & _ & _ & _ & _ & Hget & Htrace).
    split; [exact Hget | exact Htrace].
Defined.

(** No precipitation line at 0 mm; the high-UV line at an index of 7. *)
Example format_weather_sunny_noon :
  format_weather no_format no_format sunny_noon
  = GoStrings.Join
      ["Current weather in Barcelona, Spain (during the day):";
       "Temperature: ?°C (feels like ?°C)";
       "Conditions: Sunny";
       "Wind: ? km/h from NE";
       "Humidity: 40%";
       "Cloud coverage: 0%";
       " High UV index: ? (use sun protection)"] GoStrings.LF.
Proof. vm_compute. reflexivity. Qed.

Example GetCurrentWeather_service_down :
  fst (GetCurrentWeather service_down no_decoder no_format no_format patient_context
         configured_client "Barcelona" weather_start)
  = (fallback_text, Some "API returned 503: Service Unavailable").
Proof. vm_compute. reflexivity. Qed.

End WeatherFacts.

(** ** The holidays tool *)

Module HolidaysFacts.

Import Holidays HolidaysSpec.

Lemma filter_events_capped maxCount beforeDate afterDate events : forall holidays,
  0 < maxCount ->
  filter_events maxCount beforeDate afterDate events holidays
  = holidays ++ firstn (Z.to_nat (maxCount - GoStrings.len_list holidays))
                  (omap (kept beforeDate afterDate) events).
Proof.
  intros holidays Hpos. revert holidays.
  induction events as [|event rest IH]; intros holidays.
  - cbn. now rewrite firstn_nil, app_nil_r.
  - cbn [filter_events omap list_omap]. unfold kept at 1. fold bound_set.
    destruct (GetAllDayStartAt event) as [date [err|]]; [apply IH|].
    replace (0 <? maxCount) with true by (symmetry; apply Z.ltb_lt; lia).
    cbn [andb].
    destruct (Z.leb_spec maxCount (GoStrings.len_list holidays)) as [Hfull|Hroom].
    + replace (Z.to_nat (maxCount - GoStrings.len_list holidays)) with 0%nat by lia.
      now rewrite !firstn_0, app_nil_r.
    + fold (bound_set beforeDate). fold (bound_set afterDate).
      destruct (bound_set beforeDate && GoTime.After date beforeDate); [apply IH|].
      destruct (bound_set afterDate && GoTime.Before date afterDate); [apply IH|].
      rewrite IH. unfold GoStrings.len_list in *. rewrite List.length_app. cbn [List.length].
      replace (Z.to_nat (maxCount - Z.of_nat (List.length holidays)))
        with (S (Z.to_nat (maxCount - Z.of_nat (List.length holidays + 1)))) by lia.
      cbn [firstn]. now rewrite <- app_assoc.
Qed.

Lemma filter_events_uncapped maxCount beforeDate afterDate events : forall holidays,
  maxCount <= 0 ->
  filter_events maxCount beforeDate afterDate events holidays
  = holidays ++ omap (kept beforeDate afterDate) events.
Proof.
  intros holidays Hno. revert holidays.
  induction events as [|event rest IH]; intros holidays.
  - cbn. now rewrite app_nil_r.
  - cbn [filter_events omap list_omap]. unfold kept at 1.
    destruct (GetAllDayStartAt event) as [date [err|]]; [apply IH|].
    replace (0 <? maxCount) with false by (symmetry; apply Z.ltb_ge; lia).
    cbn [andb]. fold (bound_set beforeDate). fold (bound_set afterDate).
    destruct (bound_set beforeDate && GoTime.After date beforeDate); [apply IH|].
    destruct (bound_set afterDate && GoTime.Before date afterDate); [apply IH|].
    rewrite IH. now rewrite <- app_assoc.
Qed.

Lemma filter_events_spec maxCount beforeDate afterDate events :
  filter_events maxCount beforeDate afterDate events []
  = capped maxCount (omap (kept beforeDate afterDate) events).
Proof.
  unfold capped. destruct (Z.ltb_spec 0 maxCount).
  - rewrite filter_events_capped by assumption. cbn [app GoStrings.len_list List.length].
    now rewrite Z.sub_0_r.
  - now rewrite filter_events_uncapped by assumption.
Qed.

Section Tool.

Context {Env : Type}.
Variable json_Unmarshal : string -> Args * option error.
Variable time_Parse_RFC3339 : string -> GoTime.Time * option error.
Variable LoadCalendar : string -> Env -> (list VEvent * option error) * Env.

Lemma Execute_loaded t arguments e args beforeDate afterDate events e' :
  json_Unmarshal arguments = (args, None) ->
  parsed_bound time_Parse_RFC3339 (BeforeDate args) = (beforeDate, None) ->
  parsed_bound time_Parse_RFC3339 (AfterDate args) = (afterDate, None) ->
  LoadCalendar (calendarURL t) e = ((events, None), e') ->
  Execute json_Unmarshal time_Parse_RFC3339 LoadCalendar t arguments e
  = ((GoStrings.Join (filter_events (MaxCount args) beforeDate afterDate events [])
        GoStrings.LF, None), e').
Proof.
  intros Hargs Hbefore Hafter Hload. unfold Execute. rewrite Hargs.
  fold (parsed_bound time_Parse_RFC3339 (BeforeDate args)). rewrite Hbefore.
  fold (parsed_bound time_Parse_RFC3339 (AfterDate args)). rewrite Hafter.
  rewrite (bind_run _ _ _ _ _ Hload). reflexivity.
Qed.

(** C8: with arguments that decode and a calendar that loads, the tool
    returns, joined by newlines and in feed order, the lines
    [YYYY-MM-DD: summary] of the events whose date is well formed, not
    after a set before-bound and not before a set after-bound, cut to the
    first [max_count] of them when [max_count] is positive; once that many
    lines are collected the loop stops at the next dated event whatever
    its date.  For events on 2024-01-01, 2024-06-15 and 2024-12-25 with
    the after-bound 2024-02-01 and [max_count] 1 the output is the line of
    2024-06-15. *)
Theorem HolidaysTool_Execute_filters
  t arguments e args beforeDate afterDate events e' :
  json_Unmarshal arguments = (args, None) ->
  parsed_bound time_Parse_RFC3339 (BeforeDate args) = (beforeDate, None) ->
  parsed_bound time_Parse_RFC3339 (AfterDate args) = (afterDate, None) ->
  LoadCalendar (calendarURL t) e = ((events, None), e') ->
  Execute json_Unmarshal time_Parse_RFC3339 LoadCalendar t arguments e
  = ((GoStrings.Join
        (capped (MaxCount args) (omap (kept beforeDate afterDate) events))
        GoStrings.LF, None), e')
  /\ (forall event date rest holidays,
        GetAllDayStartAt event = (date, None) ->
        0 < MaxCount args ->
        MaxCount args <= GoStrings.len_list holidays ->
        filter_events (MaxCount args) beforeDate afterDate (event :: rest) holidays
        = holidays)
  /\ (forall s1 s2 s3,
        MaxCount args = 1 ->
        beforeDate = GoTime.zero ->
        afterDate = GoTime.Date 2024 2 1 ->
        events = [event_on 2024 1 1 s1; event_on 2024 6 15 s2; event_on 2024 12 25 s3] ->
        Execute json_Unmarshal time_Parse_RFC3339 LoadCalendar t arguments e
        = (("2024-06-15: " +:+ s2, None), e')).
Proof.
  intros Hargs Hbefore Hafter Hload.
  pose proof (Execute_loaded t arguments e args beforeDate afterDate events e'
                Hargs Hbefore Hafter Hload) as Hexec.
  split; [|split].
  - rewrite Hexec. now rewrite filter_events_spec.
  - intros event date rest holidays Hdate Hpos Hfull. cbn [filter_events].
    rewrite Hdate.
    replace (0 <? MaxCount args) with true by (symmetry; apply Z.ltb_lt; lia).
    replace (MaxCount args <=? GoStrings.len_list holidays) with true
      by (symmetry; apply Z.leb_le; lia).
    reflexivity.
  - intros s1 s2 s3 Hmax -> -> ->. rewrite Hexec, Hmax. reflexivity.
Qed.

End Tool.

Import Demo.

Lemma HolidaysTool_Execute_witness :
  Execute decode_arguments parse_time catalonia_feed holidays_tool
    "{after_date: 2024-02-01T00:00:00Z, max_count: 1}" 0%nat
  = (("2024-06-15: Local Festival", None), 1%nat).
Proof.
  refine (proj2 (proj2 (HolidaysTool_Execute_filters decode_arguments parse_time
                          catalonia_feed holidays_tool
                          "{after_date: 2024-02-01T00:00:00Z, max_count: 1}" 0%nat
                          after_february GoTime.zero (GoTime.Date 2024 2 1)
                          [event_on 2024 1 1 "New Year's Day";
                           event_on 2024 6 15 "Local Festival";
                           event_on 2024 12 25 "Christmas Day"] 1%nat _ _ _ _))
            "New Year's Day" "Local Festival" "Christmas Day" _ _ _ _);
    reflexivity.
Defined.

(** Events need not come in date order, and a malformed date is passed
    over. *)
Example filter_events_unsorted :
  filter_events 2 (GoTime.Date 2024 12 1) GoTime.zero
    [event_on 2024 12 25 "Christmas Day";
     mkVEvent (GoTime.zero, Some (errors_New "time value not matched")) "Broken";
     event_on 2024 6 15 "Local Festival";
     event_on 2024 1 1 "New Year's Day";
     event_on 2024 3 29 "Good Friday"] []
  = ["2024-06-15: Local Festival"; "2024-01-01: New Year's Day"].
Proof. vm_compute. reflexivity. Qed.

End HolidaysFacts.

(** ** Starting a conversation *)

Module ServerFacts.

Import Server ServerSpec.

Section Coordinator.

Context {Env : Type}.
Variable NewObjectID : Env -> ObjectID * Env.
Variable Hex : ObjectID -> string.
Variable time_Now : Env -> GoTime.Time * Env.
Variable repo_CreateConversation : Conversation -> Env -> option error * Env.

Abbreviation start :=
  (StartConversation NewObjectID Hex time_Now repo_CreateConversation).

Implicit Types (w : @World Env) (assist : @Assistant Env) (conv : Conversation).








End Coordinator.

(** *** The two cases of the server's tests *)

Import Demo.


Example StartConversation_title_quota_exceeded :
  forall sched,
    fst (StartConversation next_id plain_hex tick store sched quota_assistant
           "Hello!" server_start)
    = (Some (mkStartConversationResponse "0" "Untitled conversation" "This is the reply"),
       None).
Proof. intros []; vm_compute; reflexivity. Qed.

Example StartConversation_blank_message :
  forall sched,
    fst (StartConversation next_id plain_hex tick store sched quota_assistant
           "   " server_start)
    = (None, Some (RequiredArgumentError "message")).
Proof. intros []; vm_compute; reflexivity. Qed.

End ServerFacts.
